(** * Models-From-Scratch: linear regression and k-nearest neighbours

    A shallow embedding of the two estimators of the notebooks
    (class [LinearRegression] and class [KNN]) together with the
    properties of their specification.

    Conventions of the embedding.

    - Python floats are idealised as the elements of a real field [R];
      rounding is not modelled.  [math.sqrt] and the square root inside
      [np.linalg.norm] are a function [sqrt : R -> R] about which only
      [sqrt x = 0 <-> x = 0] (for [0 <= x]) is ever assumed.
    - A numpy array of shape [(n, p)] is a matrix ['M[R]_(n, p)], a
      numeric array of shape [(n,)] a column ['cV[R]_n]; [np.dot] is
      [*m], [np.transpose] is [^T], [np.identity p] is [1%:M] and
      [np.linalg.inv] is [invmx], raising [LinAlgError] on a matrix
      that is not invertible.
    - The rows that [KNN] iterates over are sequences; a 2-d array with
      [p] columns is a [seq (p.-tuple R)].
    - Exceptions are values of [exn]; a method that may raise returns a
      [result]; a method that assigns attributes is a state transformer
      that returns the object together with its outcome, so that the
      object can be inspected after a failure. *)

From HB Require Import structures.
From mathcomp Require Import boot order algebra.
From Stdlib Require String.
Import String.StringSyntax.

Set Implicit Arguments.
Unset Strict Implicit.
Unset Printing Implicit Defensive.

Import Order.TTheory GRing.Theory Num.Theory.

Local Open Scope ring_scope.

Notation string := String.string.
Delimit Scope string_scope with string.
Bind Scope string_scope with String.string.

(** ** Exceptions *)

(** The texts of the [ValueError]s raised by the notebooks and by the
    library calls they make, with the values substituted for [{}]. *)
Inductive message : Type :=
  | Dimensional_error (lenX leny : nat)
      (* "Dimensional error: {} != {}"            LinearRegression.__init__ *)
  | Invalid_method (method : string)
      (* "Invalid method argument: {}"            LinearRegression.fit *)
  | Dimension_Error_x (lenx p : nat)
      (* "Dimension Error: feature vector x has dimension {} but model has
         {} predictors"                           KNN.classify *)
  | Dimension_Error (len1 len2 : nat)
      (* "Dimension Error: {} != {}"              KNN.distance *)
  | Cannot_reshape (size shape : nat)
      (* "cannot reshape array of size {} into shape ({},)"   ndarray.reshape *)
  | Max_empty.
      (* "max() arg is an empty sequence"         max *)

Inductive exn : Type :=
  | ValueError (m : message)
  | LinAlgError          (* np.linalg.inv: "Singular matrix" *)
  | IndexError           (* subscript out of range *)
  | TypeError            (* an operation applied to None *)
  | ZeroDivisionError.   (* int / int with a zero divisor *)

Inductive result (A : Type) : Type :=
  | Ok (a : A)
  | Raise (e : exn).

Arguments Ok {A} a.
Arguments Raise {A} e.

Definition bind A B (r : result A) (f : A -> result B) : result B :=
  match r with
  | Ok a => f a
  | Raise e => Raise e
  end.

Notation "x <-- c ;; k" := (bind c (fun x => k))
  (at level 200, c at level 100, k at level 200, right associativity,
   format "'[v' x  <--  c  ;; '/' k ']'").

(** [mapM f s] runs [f] on the elements of [s] from left to right and
    stops at the first exception: a [for] loop that appends to a list. *)
Fixpoint mapM A B (f : A -> result B) (s : seq A) : result (seq B) :=
  if s is a :: s' then
    b <-- f a ;;
    bs <-- mapM f s' ;;
    Ok (b :: bs)
  else Ok [::].

(** [foldM f z s]: a [for] loop that updates an accumulator. *)
Fixpoint foldM A B (f : B -> A -> result B) (z : B) (s : seq A) : result B :=
  if s is a :: s' then
    z' <-- f z a ;;
    foldM f z' s'
  else Ok z.

(** [enumerate s] *)
Definition enumerate A (s : seq A) : seq (nat * A) := zip (iota 0 (size s)) s.

(** [s[i]] for a non-negative index. *)
Definition getitem A (s : seq A) (i : nat) : result A :=
  if s is a :: _ then
    if (i < size s)%N then Ok (nth a s i) else Raise IndexError
  else Raise IndexError.

(** [s[start:stop]]: a negative bound counts from the end, and both
    bounds are clipped to the length of [s]. *)
Definition slice_index (len : nat) (i : int) : nat :=
  match i with
  | Posz m => minn m len
  | Negz m => (len - m.+1)%N
  end.

Definition slice A (s : seq A) (start stop : int) : seq A :=
  drop (slice_index (size s) start) (take (slice_index (size s) stop) s).

(** [max(s, key=key)]: the first element of [s], in iteration order,
    whose key is maximal. *)
Definition max_key A (key : A -> nat) (s : seq A) : result A :=
  if s is a :: s' then
    Ok (foldl (fun best c => if (key best < key c)%N then c else best) a s')
  else Raise (ValueError Max_empty).

(** Methods that assign attributes of [self]: the object is threaded
    through, and is returned also when the method raises. *)
Definition M (S A : Type) : Type := S -> result A * S.

Definition raise S A (e : exn) : M S A := fun self => (Raise e, self).

Definition lift S A (r : result A) : M S A := fun self => (r, self).

Definition setattr S (f : S -> S) : M S unit := fun self => (Ok tt, f self).

Arguments raise {S A} e.
Arguments lift {S A} r.
Arguments setattr {S} f.

Definition bindM S A B (c : M S A) (k : A -> M S B) : M S B :=
  fun self =>
    match c self with
    | (Ok a, self') => k a self'
    | (Raise e, self') => (Raise e, self')
    end.

Notation "x <~~ c ;; k" := (bindM c (fun x => k))
  (at level 200, c at level 100, k at level 200, right associativity,
   format "'[v' x  <~~  c  ;; '/' k ']'").

Notation "c ;;; k" := (bindM c (fun _ => k))
  (at level 200, k at level 200, right associativity,
   format "'[v' c  ;;; '/' k ']'").

(** ** Linear regression *)

Module LinearRegression.

Section Class.

Variable R : realFieldType.

(** The square root of [np.linalg.norm]. *)
Variable sqrt : R -> R.

(** The shape of the design matrix: the attributes [n] and [p]. *)
Variables n p : nat.

(** A constructed object.  [coefficients] is [None] until [fit] ran. *)
Record t : Type := Build {
  X : 'M[R]_(n, p);
  y : 'cV[R]_n;
  coefficients : option 'cV[R]_p
}.

Definition set_coefficients (b : 'cV[R]_p) (self : t) :=
  {| X := X self; y := y self; coefficients := Some b |}.

(** *** The constructor, attribute by attribute *)

(** The attributes of the object under construction; [None] is an
    attribute that has not been assigned yet. *)
Record attrs : Type := Attrs {
  a_X : option 'M[R]_(n, p);
  a_y : option 'cV[R]_n;
  a_n : option nat;
  a_p : option nat;
  a_coefficients : option (option 'cV[R]_p)
}.

Definition no_attrs : attrs := Attrs None None None None None.

Definition set_X v (a : attrs) :=
  Attrs (Some v) (a_y a) (a_n a) (a_p a) (a_coefficients a).
Definition set_y v (a : attrs) :=
  Attrs (a_X a) (Some v) (a_n a) (a_p a) (a_coefficients a).
Definition set_n v (a : attrs) :=
  Attrs (a_X a) (a_y a) (Some v) (a_p a) (a_coefficients a).
Definition set_p v (a : attrs) :=
  Attrs (a_X a) (a_y a) (a_n a) (Some v) (a_coefficients a).
Definition set_coefficients_attr v (a : attrs) :=
  Attrs (a_X a) (a_y a) (a_n a) (a_p a) (Some v).

(** [np.asarray y] for a list [y] whose length is the expected [n]. *)
Definition np_asarray1 (y : seq R) : 'cV[R]_n := \col_(i < n) nth 0 y i.

(** [len(X[0])]: the first row must exist. *)
Definition len_X0 : result nat := if n is 0%N then Raise IndexError else Ok p.

Definition __init__ (X : 'M[R]_(n, p)) (y : seq R) : M attrs unit :=
  if n != size y then
    raise (ValueError (Dimensional_error n (size y)))
  else
    setattr (set_X X) ;;;
    setattr (set_y (np_asarray1 y)) ;;;
    setattr (set_n n) ;;;
    p' <~~ lift len_X0 ;;
    setattr (set_p p') ;;;
    setattr (set_coefficients_attr None).

(** The object a caller obtains from [LinearRegression(X, y)]: the
    attributes that [__init__] has assigned, if it returns. *)
Definition new (X : 'M[R]_(n, p)) (y : seq R) : result t :=
  match __init__ X y no_attrs with
  | (Ok _, Attrs (Some X') (Some y') (Some _) (Some _) (Some c)) =>
      Ok (Build X' y' c)
  | (Ok _, _) => Raise TypeError
  | (Raise e, _) => Raise e
  end.

(** *** Metrics

    The quotients are float divisions: on a zero divisor numpy returns
    [inf] or [nan] and raises nothing.  These values are outside [R];
    the properties of [MSE] and [r_squared] below are stated for
    non-zero divisors. *)

Definition np_linalg_norm m (v : 'cV[R]_m) : R := sqrt (\sum_i (v i 0) ^+ 2).

Definition np_mean m (v : 'cV[R]_m) : R := (\sum_i v i 0) / m%:R.

Definition RSS (self : t) (b : 'cV[R]_p) : R :=
  (np_linalg_norm (y self - X self *m b)) ^+ 2.

Definition TSS (self : t) : R :=
  \sum_i ((y self) i 0 - np_mean (y self)) ^+ 2.

Definition MSE (self : t) : result R :=
  if coefficients self is Some b then Ok (RSS self b / n%:R)
  else Raise TypeError.

Definition r_squared (self : t) : result R :=
  if coefficients self is Some b then Ok (1 - RSS self b / TSS self)
  else Raise TypeError.

(** *** Fitting *)

Definition np_linalg_inv m (A : 'M[R]_m) : result 'M[R]_m :=
  if A \in unitmx then Ok (invmx A) else Raise LinAlgError.

Definition fit (method : string) (h : R) : M t unit :=
  fun self =>
  if String.eqb method "OLS" then
    let X_trans := (X self)^T in
    (A <~~ lift (np_linalg_inv (X_trans *m X self)) ;;
     let C := X_trans *m y self in
     setattr (set_coefficients (A *m C))) self
  else if String.eqb method "ridge" then
    let I := h *: (1%:M : 'M[R]_p) in
    let X_trans := (X self)^T in
    let shrinkage := I^T *m I in
    (A <~~ lift (np_linalg_inv (X_trans *m X self + shrinkage)) ;;
     let C := X_trans *m y self in
     setattr (set_coefficients (A *m C))) self
  else
    raise (ValueError (Invalid_method method)) self.

(** *** Prediction *)

(** Iterating over a 1-d array. *)
Definition list_of_array m (v : 'cV[R]_m) : seq R := [seq v i 0 | i : 'I_m].

Definition predict (self : t) (x : seq R) : result R :=
  if coefficients self is Some b then
    Ok (foldl (fun y term => y + term.1 * term.2) 0 (zip (list_of_array b) x))
  else Raise TypeError.

End Class.

End LinearRegression.

(** ** k-nearest neighbours *)

Module KNN.

Section Class.

Variable R : realFieldType.

(** [math.sqrt] *)
Variable sqrt : R -> R.

(** The type of the labels. *)
Variable L : eqType.

(** The order in which [set(lst)] is iterated: some enumeration of the
    distinct elements of [lst]. *)
Variable set_iter : seq L -> seq L.

(** The number of columns of the training array: the attribute [p]. *)
Variable p : nat.

Record t : Type := Build {
  X : seq (p.-tuple R);
  y : seq L;
  n : nat;
  k : int
}.

(** *** The constructor, attribute by attribute *)

Record attrs : Type := Attrs {
  a_X : option (seq (p.-tuple R));
  a_y : option (seq L);
  a_n : option nat;
  a_p : option nat;
  a_k : option int
}.

Definition no_attrs : attrs := Attrs None None None None None.

Definition set_X v (a : attrs) :=
  Attrs (Some v) (a_y a) (a_n a) (a_p a) (a_k a).
Definition set_y v (a : attrs) :=
  Attrs (a_X a) (Some v) (a_n a) (a_p a) (a_k a).
Definition set_n v (a : attrs) :=
  Attrs (a_X a) (a_y a) (Some v) (a_p a) (a_k a).
Definition set_p v (a : attrs) :=
  Attrs (a_X a) (a_y a) (a_n a) (Some v) (a_k a).
Definition set_k v (a : attrs) :=
  Attrs (a_X a) (a_y a) (a_n a) (a_p a) (Some v).

(** [np.asarray(y).reshape(len(X),)] for a vector [y] of labels. *)
Definition reshape (y : seq L) (len : nat) : result (seq L) :=
  if size y != len then Raise (ValueError (Cannot_reshape (size y) len))
  else Ok y.

Definition __init__ (X : seq (p.-tuple R)) (y : seq L) (k : int)
  : M attrs unit :=
  setattr (set_X X) ;;;
  y' <~~ lift (reshape y (size X)) ;;
  setattr (set_y y') ;;;
  setattr (set_n (size X)) ;;;
  setattr (set_p p) ;;;
  setattr (set_k k).

(** The object a caller obtains from [KNN(X, y, k)]: the attributes
    that [__init__] has assigned, if it returns. *)
Definition new (X : seq (p.-tuple R)) (y : seq L) (k : int) : result t :=
  match __init__ X y k no_attrs with
  | (Ok _, Attrs (Some X') (Some y') (Some n') (Some _) (Some k')) =>
      Ok (Build X' y' n' k')
  | (Ok _, _) => Raise TypeError
  | (Raise e, _) => Raise e
  end.

(** *** Helper methods *)

Definition distance (p1 p2 : seq R) : result R :=
  if size p1 != size p2 then
    Raise (ValueError (Dimension_Error (size p1) (size p2)))
  else
    Ok (sqrt (foldl (fun distance pair => distance + (pair.1 - pair.2) ^+ 2)
                0 (zip p1 p2))).

Definition _most_common (lst : seq L) : result L :=
  max_key (fun c => count_mem c lst) (set_iter lst).

(** *** Classification *)

(** The loop of [classify] that fills [distances]. *)
Definition all_distances (self : t) (x : seq R) : result (seq (R * nat)) :=
  mapM (fun io : nat * p.-tuple R =>
          d <-- distance x (tval io.2) ;;
          Ok (d, io.1))
       (enumerate (X self)).

(** [sorted(distances, key=lambda x: x[0])] *)
Definition sorted_by_distance (distances : seq (R * nat)) : seq (R * nat) :=
  sort (fun a b => a.1 <= b.1) distances.

Definition classify (self : t) (x : seq R) : result L :=
  if size x != p then Raise (ValueError (Dimension_Error_x (size x) p))
  else
    distances <-- all_distances self x ;;
    let distances := slice (sorted_by_distance distances) 1 (k self + 1) in
    let indexes := [seq i.2 | i <- distances] in
    classes <-- mapM (getitem (y self)) indexes ;;
    _most_common classes.

(** *** Error rates *)

(** The loop shared by [train_error] and [test_error]: the number of
    rows of [X] whose classification differs from the label in [y]. *)
Definition count_incorrect (self : t) (X : seq (seq R)) (y : seq L)
  : result nat :=
  foldM (fun incorrect (io : nat * seq R) =>
           c <-- classify self io.2 ;;
           label <-- getitem y io.1 ;;
           Ok (if c != label then incorrect.+1 else incorrect))
        0%N (enumerate X).

(** [incorrect / len]: true division of two Python integers. *)
Definition int_div (incorrect len : nat) : result R :=
  if len is 0%N then Raise ZeroDivisionError
  else Ok (incorrect%:R / len%:R).

Definition train_error (self : t) : result R :=
  incorrect <-- count_incorrect self [seq tval r | r <- X self] (y self) ;;
  int_div incorrect (n self).

Definition test_error (self : t) (X : seq (seq R)) (y : seq L) : result R :=
  incorrect <-- count_incorrect self X y ;;
  int_div incorrect (size X).

End Class.

End KNN.

(** ** Vocabulary of the specification *)

Section Vocabulary.

Variable R : realFieldType.

(** The ridge solution as the specification words it: the penalty
    matrix is [h] times the identity. *)
Definition ridge_as_specified n p (self : LinearRegression.t R n p) (h : R)
  : 'cV[R]_p :=
  let X := LinearRegression.X self in
  invmx (X^T *m X + h *: 1%:M) *m (X^T *m LinearRegression.y self).

(** The Euclidean distance, [sqrt(sum_i (p1_i - p2_i)^2)]. *)
Definition euclidean (sqrt : R -> R) (p1 p2 : seq R) : R :=
  sqrt (\sum_(i < size p1) (nth 0 p1 i - nth 0 p2 i) ^+ 2).

(** The pairs (distance to [x], index) of the training points, in the
    order of the training set. *)
Definition distance_pairs (sqrt : R -> R) p (X : seq (p.-tuple R)) (x : seq R)
  : seq (R * nat) :=
  [seq (euclidean sqrt x (tval io.2), io.1) | io <- enumerate X].

(** Ascending by distance, ties by the position in the training set. *)
Definition by_distance_then_index (a b : R * nat) : bool :=
  (a.1 < b.1) || ((a.1 == b.1) && (a.2 <= b.2)%N).

(** [c] occurs in [lst] and no label occurs more often. *)
Definition most_common (L : eqType) (c : L) (lst : seq L) : Prop :=
  c \in lst /\ forall c', (count_mem c' lst <= count_mem c lst)%N.

(** The number of predictions that differ from the label at the same
    position. *)
Definition misclassified (L : eqType) (predictions labels : seq L) : nat :=
  count (fun cl => cl.1 != cl.2) (zip predictions labels).

End Vocabulary.

(** ** Closed instances

    The rationals stand for the floats in the closed examples.  They
    have no square roots; [sqrt_rat] is Heron's first iterate from 1,
    which is strictly increasing on the non-negative rationals, hence
    ranks neighbours as the square root does, and vanishes only at 0. *)

Definition sqrt_rat (x : rat) : rat := if x == 0 then 0 else (x + 1) / 2%:R.

HB.instance Definition _ := hasDecEq.Build string String.eqb_spec.

Module Examples.

(** One observation of one predictor: [X = [[1]]], [y = [1]]. *)
Definition one : LinearRegression.t rat 1 1 :=
  LinearRegression.Build 1%:M 1%:M None.

(** Two observations, [X] the identity, [y = [0, 1]]. *)
Definition two_y : 'cV[rat]_2 := \col_(i < 2) (i : nat)%:R.

Definition two : LinearRegression.t rat 2 2 :=
  LinearRegression.Build 1%:M two_y (Some two_y).

(** Scenario 2 of the specification: [X = [[0], [1], [2], [10]]],
    [y = ['a', 'a', 'a', 'b']], [k = 3]. *)
Definition line_X : seq (1.-tuple rat) :=
  [:: [tuple 0]; [tuple 1]; [tuple 2%:R]; [tuple 10%:R]].

Definition line_y : seq string := [:: "a"; "a"; "a"; "b"]%string.

Definition line (k : int) : KNN.t rat string 1 := KNN.Build line_X line_y 4 k.

End Examples.

(** * Properties *)

(** ** The Python fragment *)

Section PythonFacts.

Lemma mapM_map A B (f : A -> result B) (g : A -> B) (s : seq A) :
  (forall i a0, (i < size s)%N -> f (nth a0 s i) = Ok (g (nth a0 s i))) ->
  mapM f s = Ok [seq g a | a <- s].
Proof.
elim: s => [|a s IHs] //= ok_f.
rewrite (ok_f 0%N a) //= IHs // => i a0 lt_i.
exact: (ok_f i.+1 a0).
Qed.

Lemma getitem_nth A (s : seq A) a0 i :
  (i < size s)%N -> getitem s i = Ok (nth a0 s i).
Proof.
case: s => [|a s] //= lt_i; rewrite lt_i.
by rewrite (set_nth_default a0).
Qed.

Lemma getitem_out A (s : seq A) i :
  (size s <= i)%N -> getitem s i = Raise IndexError.
Proof. by case: s => [|a s] //= lt_i; rewrite ltnS leqNgt lt_i. Qed.

Lemma slice_index_nat len (m : nat) : slice_index len m%:Z = minn m len.
Proof. by []. Qed.

(** [s[1:k+1]] for a non-negative [k]: the elements at the positions
    [1 .. k], as far as they exist. *)
Lemma slice_from_1 A (s : seq A) (k : nat) :
  slice s 1 (k%:Z + 1) = drop 1 (take k.+1 s).
Proof.
have -> : k%:Z + 1 = k.+1%:Z :> int by rewrite -addn1 PoszD.
rewrite /slice (slice_index_nat _ 1) slice_index_nat.
case: (leqP k.+1 (size s)) => [le_k|lt_s].
  by rewrite (minn_idPl (leq_ltn_trans (leq0n k) le_k)).
rewrite take_size take_oversize ?(ltnW lt_s) //.
by case: (s) => [|a s'] //; rewrite (@minn_idPl 1 _ _).
Qed.

Section MaxKey.

Variables (T : eqType) (key : T -> nat).

Lemma foldl_max (a : T) (s : seq T) :
  let best := fun best c => if (key best < key c)%N then c else best in
  foldl best a s \in a :: s /\
  forall c', c' \in a :: s -> (key c' <= key (foldl best a s))%N.
Proof.
elim: s a => [|b s IHs] a /=.
  by split; rewrite ?mem_head // => c'; rewrite inE => /eqP ->.
set a' := if _ then b else a.
have [c_in c_max] := IHs a'; split.
  move: c_in; rewrite !inE => /orP [/eqP ->|->]; last by rewrite !orbT.
  by rewrite /a'; case: ifP; rewrite eqxx ?orbT.
have le_a : (key a <= key a')%N by rewrite /a'; case: ltnP => // /ltnW.
have le_b : (key b <= key a')%N by rewrite /a'; case: ltnP.
have a'_max := c_max a' (mem_head _ _).
move=> c'; rewrite !inE => /or3P [/eqP ->|/eqP ->|c'_in].
- exact: leq_trans le_a a'_max.
- exact: leq_trans le_b a'_max.
by apply: c_max; rewrite inE c'_in orbT.
Qed.

Lemma max_keyP (s : seq T) :
  s != [::] ->
  exists c,
    [/\ max_key key s = Ok c, c \in s
      & forall c', c' \in s -> (key c' <= key c)%N].
Proof.
case: s => [|a s] // _; have [c_in c_max] := foldl_max a s.
by eexists; split; first by [].
Qed.

End MaxKey.

Lemma foldl_sum (R : realFieldType) T (F : T -> R) (s : seq T) z :
  foldl (fun acc t => acc + F t) z s = z + \sum_(t <- s) F t.
Proof.
elim: s z => [|t s IHs] z /=; first by rewrite big_nil addr0.
by rewrite IHs big_cons addrA.
Qed.

End PythonFacts.

(** ** Linear regression *)

Lemma len_X0_pos n p : (0 < n)%N -> LinearRegression.len_X0 n p = Ok p.
Proof. by case: n. Qed.

Section FitFacts.

Variable R : realFieldType.
Variables n p : nat.
Implicit Types (self : LinearRegression.t R n p) (h : R).

Import LinearRegression.

(** The penalty that [fit] adds: the product of [h * identity] with
    itself. *)
Lemma shrinkageE h :
  (h *: (1%:M : 'M[R]_p))^T *m (h *: 1%:M) = (h ^+ 2)%:M.
Proof. by rewrite scalemx1 tr_scalar_mx -scalar_mxM expr2. Qed.

Lemma fit_OLS_E self h :
  let A := (X self)^T *m X self in
  fit "OLS" h self =
    if A \in unitmx
    then (Ok tt, set_coefficients (invmx A *m ((X self)^T *m y self)) self)
    else (Raise LinAlgError, self).
Proof. by rewrite /fit /= /bindM /lift /np_linalg_inv; case: ifP. Qed.

Lemma fit_ridge_E self h :
  let A := (X self)^T *m X self + (h ^+ 2)%:M in
  fit "ridge" h self =
    if A \in unitmx
    then (Ok tt, set_coefficients (invmx A *m ((X self)^T *m y self)) self)
    else (Raise LinAlgError, self).
Proof.
by rewrite /fit /= /bindM /lift /np_linalg_inv shrinkageE; case: ifP.
Qed.

(** C1 (as amended). When [fit] succeeds with [method = 'ridge'] and
    shrinkage strength [h], the coefficient vector is
    [(X^T X + h^2 I)^-1 X^T y]: the normal-equation matrix has [h ^ 2]
    added to every diagonal entry, and nothing to the others, before
    it is inverted. *)
Theorem fit_ridge_adds_h_squared self h self' :
  fit "ridge" h self = (Ok tt, self') ->
  let XtX := (X self)^T *m X self in
  let A := XtX + (h ^+ 2) *: 1%:M in
  [/\ forall i j, A i j = XtX i j + (if i == j then h ^+ 2 else 0),
      A \in unitmx
    & coefficients self' = Some (invmx A *m ((X self)^T *m y self))].
Proof.
rewrite fit_ridge_E /= scalemx1.
case: ifP => // unit_A [<-]; split=> // i j.
by rewrite !mxE; case: eqP; rewrite ?mulr1n ?mulr0n.
Qed.

(** C2. Whenever the ordinary least-squares fit succeeds, the ridge
    fit with [h = 0] on the same data succeeds too and yields the same
    coefficient vector. *)
Theorem ridge_zero_is_OLS self h self_ols :
  fit "OLS" h self = (Ok tt, self_ols) ->
  exists self_ridge,
    fit "ridge" 0 self = (Ok tt, self_ridge) /\
    coefficients self_ridge = coefficients self_ols.
Proof.
rewrite fit_OLS_E fit_ridge_E /= expr0n /= raddf0 addr0.
by case: ifP => // _ [<-]; eexists.
Qed.

(** C7. For a method other than ['OLS'] and ['ridge'], [fit] raises
    the "Invalid method argument" error and returns the object as it
    was: no attribute, in particular not [coefficients], is touched. *)
Theorem fit_rejects_other_methods self method h :
  method <> "OLS"%string -> method <> "ridge"%string ->
  fit method h self = (Raise (ValueError (Invalid_method method)), self).
Proof.
move=> /String.eqb_neq not_OLS /String.eqb_neq not_ridge.
by rewrite /fit not_OLS not_ridge.
Qed.

End FitFacts.

Section MetricFacts.

Variable R : realFieldType.
Variable sqrt : R -> R.

(** What is assumed of the square root. *)
Hypothesis sqrt_eq0 : forall x, 0 <= x -> (sqrt x == 0) = (x == 0).

Variables n p : nat.
Implicit Types (self : LinearRegression.t R n p) (b : 'cV[R]_p).

Import LinearRegression.



Lemma RSS_eq0 self b :
  RSS sqrt self b = 0 <-> forall i, (y self - X self *m b) i 0 = 0.
Proof.
have sq_ge0 i : true -> 0 <= (y self - X self *m b) i 0 ^+ 2.
  by rewrite sqr_ge0.
have sum_ge0 := sumr_ge0 (index_enum 'I_n) sq_ge0.
rewrite /RSS /np_linalg_norm; split=> [/eqP|res0].
  rewrite sqrf_eq0 sqrt_eq0 // psumr_eq0 // => /allP all0 i.
  by apply/eqP; rewrite -sqrf_eq0; apply: all0; rewrite mem_index_enum.
apply/eqP; rewrite sqrf_eq0 sqrt_eq0 // big1 // => i _.
by rewrite res0 expr0n.
Qed.


End MetricFacts.

Section PredictFacts.

Variable R : realFieldType.
Variables n p : nat.
Implicit Types (self : LinearRegression.t R n p) (b : 'cV[R]_p).
Implicit Types x a : seq R.

Import LinearRegression.

Lemma sum_zip_nth a x :
  \sum_(term <- zip a x) term.1 * term.2 =
  \sum_(0 <= i < size a | (i < size x)%N) nth 0 a i * nth 0 x i.
Proof.
rewrite [RHS]big_mkcond /=.
elim: a x => [|a0 a IHa] [|x0 x] /=.
- by rewrite big_nil big_geq.
- by rewrite big_nil big_geq.
- by rewrite big_nil big1.
by rewrite big_cons big_nat_recl //= IHa.
Qed.

Lemma nth_list_of_array b (i : 'I_p) : nth 0 (list_of_array b) i = b i 0.
Proof.
by rewrite /list_of_array (nth_map i) ?size_enum_ord // nth_ord_enum.
Qed.

Lemma predictE self b x :
  coefficients self = Some b ->
  predict self x = Ok (\sum_(i < p | (i < size x)%N) b i 0 * nth 0 x i).
Proof.
move=> fitted; rewrite /predict fitted.
rewrite (foldl_sum (fun term : R * R => term.1 * term.2)) add0r.
rewrite sum_zip_nth /list_of_array size_map size_enum_ord big_mkord.
congr Ok; apply: eq_bigr => i _.
by rewrite -/(list_of_array b) nth_list_of_array.
Qed.

(** C4 (as amended). On a fitted model [predict(x)] raises nothing,
    whatever the length of [x]: it pairs the coefficients with the
    entries of [x] as far as both exist and returns the sum of the
    products; when [x] has length [p] that is [dot(coefficients, x)]. *)
Theorem predict_truncated_dot self b x :
  coefficients self = Some b ->
  predict self x = Ok (\sum_(i < p | (i < size x)%N) b i 0 * nth 0 x i) /\
  (size x = p -> predict self x = Ok (\sum_(i < p) b i 0 * nth 0 x i)).
Proof.
move=> fitted; rewrite (predictE x fitted); split=> // size_x; congr Ok.
by apply: eq_bigl => i; rewrite size_x ltn_ord.
Qed.

End PredictFacts.

Section LinearRegressionInit.

Variable R : realFieldType.
Variables n p : nat.
Implicit Types (X : 'M[R]_(n, p)) (y : seq R).

Import LinearRegression.

Lemma LinearRegression_init_mismatch X y :
  n <> size y ->
  __init__ X y (no_attrs R n p) =
    (Raise (ValueError (Dimensional_error n (size y))), no_attrs R n p).
Proof. by move/eqP => neq; rewrite /__init__ (negPf neq). Qed.

Lemma LinearRegression_newE X y :
  n = size y -> (0 < n)%N ->
  new X y = Ok (Build X (np_asarray1 n y) None).
Proof.
move=> eq_n n_gt0; rewrite /new /__init__ -eq_n eqxx /=.
by rewrite /bindM /= len_X0_pos.
Qed.

End LinearRegressionInit.

(** Fits whose design matrix is the identity. *)
Section IdentityDesign.

Variable R : realFieldType.
Variable m : nat.
Implicit Types (y : 'cV[R]_m) (h : R).

Import LinearRegression.

Lemma scalar_unitmx (a : R) : a != 0 -> (a%:M : 'M[R]_m) \in unitmx.
Proof. by move=> a_neq0; rewrite unitmxE det_scalar unitfE expf_neq0. Qed.

Lemma fit_OLS_identity y c h :
  fit "OLS" h (Build 1%:M y c) = (Ok tt, Build 1%:M y (Some y)).
Proof.
by rewrite fit_OLS_E /= trmx1 mulmx1 unitmx1 invmx1 !mul1mx.
Qed.

Lemma fit_ridge_identity y c h :
  fit "ridge" h (Build 1%:M y c) =
    (Ok tt, Build 1%:M y (Some ((1 + h ^+ 2)^-1 *: y))).
Proof.
have neq0 : 1 + h ^+ 2 != 0 by rewrite gt_eqF // ltr_pwDl // sqr_ge0.
rewrite fit_ridge_E /= trmx1 mulmx1 -raddfD /=.
by rewrite scalar_unitmx // invmx_scalar mul1mx mul_scalar_mx.
Qed.

Lemma ridge_as_specified_identity y c h :
  ridge_as_specified (Build 1%:M y c) h = (1 + h)^-1 *: y.
Proof.
rewrite /ridge_as_specified /= trmx1 mulmx1 scalemx1 -raddfD /=.
by rewrite invmx_scalar mul1mx mul_scalar_mx.
Qed.

End IdentityDesign.

(** Closed instances for the linear regression. *)
Section LinearRegressionClosed.

Import LinearRegression Examples.

Lemma sqrt_rat_eq0 (x : rat) : 0 <= x -> (sqrt_rat x == 0) = (x == 0).
Proof.
rewrite /sqrt_rat => x_ge0; case: (altP (x =P 0)) => [_|x_neq0].
  by rewrite eqxx.
by rewrite mulf_eq0 invr_eq0 pnatr_eq0 orbF gt_eqF // ltr_wpDl.
Qed.



(** C1 (counterexample). With [X = [[1]]], [y = [1]] and [h = 2] the
    ridge fit succeeds, and its coefficient, [1/5], is not the
    [(X^T X + h I)^-1 X^T y = 1/3] of the claim. *)
Lemma ridge_penalty_is_not_h :
  exists self',
    fit "ridge" 2%:R one = (Ok tt, self') /\
    coefficients self' <> Some (ridge_as_specified one 2%:R).
Proof.
eexists; split; first exact: fit_ridge_identity.
rewrite ridge_as_specified_identity /= => -[] /matrixP /(_ 0 0).
by rewrite !mxE.
Qed.

(** C1 at [X = [[1]]], [y = [1]], [h = 2]. *)
Lemma fit_ridge_adds_h_squared_witness :
  exists self',
    fit "ridge" 2%:R one = (Ok tt, self') /\
    coefficients self' =
      Some (invmx (1%:M^T *m 1%:M + (2%:R ^+ 2) *: 1%:M) *m (1%:M^T *m 1%:M)).
Proof.
have ok := fit_ridge_identity (1%:M : 'cV[rat]_1) None 2%:R.
have [_ _ coef] := fit_ridge_adds_h_squared ok.
by eexists; split; [exact: ok | exact: coef].
Defined.

(** C2 at [X = [[1]]], [y = [1]]. *)
Lemma ridge_zero_is_OLS_witness :
  fit "OLS" 1 one = (Ok tt, Build 1%:M 1%:M (Some 1%:M)) /\
  exists self_ridge,
    fit "ridge" 0 one = (Ok tt, self_ridge) /\
    coefficients self_ridge = Some 1%:M.
Proof.
have ok := fit_OLS_identity (1%:M : 'cV[rat]_1) None 1.
by split; [exact: ok | exact: (ridge_zero_is_OLS ok)].
Defined.

(** C7 at [method = 'lasso']. *)
Lemma fit_rejects_other_methods_witness :
  [/\ "lasso"%string <> "OLS"%string, "lasso"%string <> "ridge"%string
    & fit "lasso" 1 one = (Raise (ValueError (Invalid_method "lasso")), one)].
Proof.
have not_OLS : "lasso"%string <> "OLS"%string by [].
have not_ridge : "lasso"%string <> "ridge"%string by [].
split; [exact: not_OLS | exact: not_ridge |].
exact: (fit_rejects_other_methods one 1 not_OLS not_ridge).
Defined.

(** C4 (counterexample). The model fitted to [X = [[1]]], [y = [1]]
    has one predictor; [predict([2, 3])] does not fail, it returns 2. *)
Lemma predict_accepts_other_lengths :
  exists self',
    [/\ fit "OLS" 1 one = (Ok tt, self'),
        size [:: 2%:R; 3%:R : rat] <> 1%N
      & predict self' [:: 2%:R; 3%:R] = Ok 2%:R].
Proof.
eexists; split; [exact: fit_OLS_identity | by [] |].
rewrite (predictE _ (erefl : coefficients (Build _ _ _) = Some _)).
by rewrite big_mkcond big_ord_recl big_ord0 /= !mxE /= mul1r addr0.
Qed.

(** C4 at a model with two predictors and [x = [1, 1]]. *)
Lemma predict_truncated_dot_witness :
  predict two [:: 1; 1] = Ok (\sum_(i < 2) two_y i 0 * nth 0 [:: 1; 1] i).
Proof.
have fitted : coefficients two = Some two_y by [].
have [_ dot] := predict_truncated_dot [:: 1; 1] fitted.
exact: dot.
Defined.


End LinearRegressionClosed.

(** ** k-nearest neighbours *)

Section KNNInit.

Variable R : realFieldType.
Variable L : eqType.
Variable p : nat.
Implicit Types (X : seq (p.-tuple R)) (y : seq L) (k : int).

Import KNN.

Lemma KNN_init_mismatch X y k :
  size y <> size X ->
  __init__ X y k (no_attrs R L p) =
    (Raise (ValueError (Cannot_reshape (size y) (size X))),
     set_X X (no_attrs R L p)).
Proof.
by move=> /eqP neq; rewrite /__init__ /bindM /= /reshape (negPf neq).
Qed.

(** C5 (as amended). The constructor never looks at [k]: for every
    integer [k], also below 1 or above [n], constructing a classifier
    from [n] observations and [n] labels succeeds and stores [k]. *)
Theorem KNN_new_stores_any_k X y k :
  size y = size X -> new X y k = Ok (Build X y (size X) k).
Proof.
by move=> eq_size; rewrite /new /__init__ /bindM /= /reshape eq_size eqxx.
Qed.

End KNNInit.

(** C6 (as amended). With a feature matrix and a target or label vector
    of different lengths both constructors fail, with an error that
    reports the two lengths.  [LinearRegression] compares the lengths
    first and fails before any attribute is assigned.  [KNN] has no
    such comparison: it fails when the labels are reshaped, after the
    attribute [X] has been assigned, and assigns nothing else. *)
Theorem init_length_mismatch (R : realFieldType) (L : eqType) (n p q : nat)
    (X : 'M[R]_(n, p)) (y : seq R)
    (X' : seq (q.-tuple R)) (y' : seq L) (k : int) :
  (n <> size y ->
   LinearRegression.__init__ X y (LinearRegression.no_attrs R n p) =
     (Raise (ValueError (Dimensional_error n (size y))),
      LinearRegression.no_attrs R n p)) /\
  (size y' <> size X' ->
   KNN.__init__ X' y' k (KNN.no_attrs R L q) =
     (Raise (ValueError (Cannot_reshape (size y') (size X'))),
      KNN.Attrs (Some X') None None None None)).
Proof.
by split; [exact: LinearRegression_init_mismatch | exact: KNN_init_mismatch].
Qed.

Section KNNFacts.

Variable R : realFieldType.
Variable sqrt : R -> R.
Variable L : eqType.
Variable set_iter : seq L -> seq L.

(** [set(lst)] is iterated in some order, without repetition. *)
Hypothesis set_iterP : forall lst, perm_eq (set_iter lst) (undup lst).

Variable p : nat.
Implicit Types (self : KNN.t R L p) (x : seq R).

Import KNN.

Lemma distanceE (p1 p2 : seq R) :
  size p1 = size p2 -> distance sqrt p1 p2 = Ok (euclidean sqrt p1 p2).
Proof.
move=> eq_size; rewrite /distance eq_size eqxx /euclidean; congr (Ok (sqrt _)).
rewrite (foldl_sum (fun pair : R * R => (pair.1 - pair.2) ^+ 2)) add0r.
rewrite (big_nth (0, 0)) size_zip -eq_size minnn big_mkord.
by apply: eq_bigr => i _; rewrite nth_zip.
Qed.

Lemma all_distancesE self x :
  size x = p -> all_distances sqrt self x = Ok (distance_pairs sqrt (X self) x).
Proof.
move=> size_x; rewrite /all_distances /distance_pairs.
apply: mapM_map => i io0 _.
by rewrite distanceE // size_x size_tuple.
Qed.

Lemma size_distance_pairs (Xs : seq (p.-tuple R)) x :
  size (distance_pairs sqrt Xs x) = size Xs.
Proof.
by rewrite /distance_pairs /enumerate size_map size_zip size_iota minnn.
Qed.


(** The sort is a permutation, and it is stable: pairs that enter in
    the order of their indexes leave ordered by distance, and by index
    where the distances are equal. *)
Lemma sorted_by_distanceP (pairs : seq (R * nat)) :
  sorted ltn [seq i.2 | i <- pairs] ->
  perm_eq (sorted_by_distance pairs) pairs /\
  sorted (@by_distance_then_index R) (sorted_by_distance pairs).
Proof.
move=> sorted_idx; split; first by rewrite /sorted_by_distance perm_sort.
have total_le : total (fun a b : R * nat => a.1 <= b.1).
  by move=> a b; exact: le_total.
have trans_lt : transitive (fun a b : R * nat => (a.2 < b.2)%N).
  by move=> b a c; exact: ltn_trans.
have sorted_lt : sorted (fun a b : R * nat => (a.2 < b.2)%N) pairs.
  by move: sorted_idx; rewrite sorted_map.
have := sort_stable total_le trans_lt sorted_lt; apply: sub_sorted => a b /=.
rewrite /by_distance_then_index le_eqVlt => /andP [/orP [/eqP eq_d|->//]].
by rewrite eq_d lexx /= ltxx eqxx /= => /ltnW.
Qed.


Lemma by_distance_then_index_trans : transitive (@by_distance_then_index R).
Proof.
move=> [db ib] [da ia] [dc ic]; rewrite /by_distance_then_index /=.
case: (ltgtP da db) => //= [lt_ab _|-> /= le_ab].
  case: (ltgtP db dc) => //= [lt_bc _|<- _]; last by rewrite lt_ab.
  by rewrite (lt_trans lt_ab lt_bc).
by case: (ltgtP db dc) => //= _ le_bc; rewrite (leq_trans le_ab le_bc).
Qed.

Lemma by_distance_then_index_anti :
  antisymmetric (@by_distance_then_index R).
Proof.
move=> [da ia] [db ib]; rewrite /by_distance_then_index /=.
by case: (ltgtP da db) => //= -> /=; rewrite -eqn_leq => /eqP ->.
Qed.

(** What is asked of [sorted] determines its result: the ranking is the
    only arrangement of the pairs that ascends by distance and, within
    a distance, by index. *)
Lemma ranking_unique (pairs s : seq (R * nat)) :
  sorted ltn [seq i.2 | i <- pairs] ->
  perm_eq s pairs -> sorted (@by_distance_then_index R) s ->
  s = sorted_by_distance pairs.
Proof.
move=> sorted_idx perm_s sorted_s.
have [perm_r sorted_r] := sorted_by_distanceP sorted_idx.
apply: (sorted_eq by_distance_then_index_trans by_distance_then_index_anti);
  rewrite //.
by rewrite (perm_trans perm_s) // perm_sym.
Qed.

Lemma most_commonP (lst : seq L) :
  lst != [::] ->
  exists2 c, _most_common set_iter lst = Ok c & most_common c lst.
Proof.
move=> lst_neq0.
have mem_set : set_iter lst =i lst.
  by move=> c; rewrite (perm_mem (set_iterP lst)) mem_undup.
have set_neq0 : set_iter lst != [::].
  case: lst lst_neq0 mem_set => // c lst _ mem_set.
  by case: (set_iter _) (mem_set c) => //; rewrite mem_head.
have [c [max_c c_in c_max]] := max_keyP (fun c => count_mem c lst) set_neq0.
exists c => //; split; first by rewrite -mem_set.
move=> c'; case: (boolP (c' \in lst)) => [|/count_memPn -> //].
by rewrite -mem_set; exact: c_max.
Qed.


End KNNFacts.

Section KNNClassify.

Variable R : realFieldType.
Variable sqrt : R -> R.
Variable L : eqType.
Variable set_iter : seq L -> seq L.
Hypothesis set_iterP : forall lst, perm_eq (set_iter lst) (undup lst).
Variable p : nat.
Implicit Types (self : KNN.t R L p) (x : seq R).

Import KNN.

Lemma size_ranked self x :
  size (sorted_by_distance (distance_pairs sqrt (X self) x)) = size (X self).
Proof. by rewrite /sorted_by_distance size_sort size_distance_pairs. Qed.



End KNNClassify.

Section KNNErrorRates.

Variable R : realFieldType.
Variable sqrt : R -> R.
Variable L : eqType.
Variable set_iter : seq L -> seq L.
Variable p : nat.
Implicit Types (self : KNN.t R L p) (X : seq (seq R)) (y preds : seq L).

Import KNN.

(** The loop of [test_error] from row [m] on, while the labels last. *)
Lemma count_incorrect_rec self X y preds m z :
  mapM (classify sqrt set_iter self) X = Ok preds ->
  (m + size X <= size y)%N ->
  foldM (fun incorrect (io : nat * seq R) =>
           c <-- classify sqrt set_iter self io.2 ;;
           label <-- getitem y io.1 ;;
           Ok (if c != label then incorrect.+1 else incorrect))
        z (zip (iota m (size X)) X)
  = Ok (z + misclassified preds (drop m y))%N.
Proof.
elim: X preds m z => [|r X IHX] preds m z /=.
  case=> <- _; rewrite /misclassified.
  by case: (drop m y) => *; rewrite /= addn0.
case ok_r: (classify _ _ _ r) => [c|] //=.
case ok_X: (mapM _ X) => [preds'|] //= [<-]; rewrite addnS => lt_m.
have [lbl def_y] : exists lbl, drop m y = lbl :: drop m.+1 y.
  case: (y) lt_m => [|lbl y'] //; exists (nth lbl (lbl :: y') m).
  by rewrite -drop_nth // (leq_ltn_trans (leq_addr _ _) lt_m).
rewrite (getitem_nth lbl) ?(leq_ltn_trans (leq_addr _ _) lt_m) //=.
rewrite (IHX preds') ?addSn // def_y /misclassified /=; congr Ok.
have -> : nth lbl y m = lbl by rewrite -[m]addn0 -nth_drop def_y.
by case: (c != lbl); rewrite ?addSn ?addnS ?add0n.
Qed.

(** The same loop when the labels run out before the rows do. *)
Lemma count_incorrect_short self X y preds m z :
  mapM (classify sqrt set_iter self) X = Ok preds ->
  (m <= size y < m + size X)%N ->
  foldM (fun incorrect (io : nat * seq R) =>
           c <-- classify sqrt set_iter self io.2 ;;
           label <-- getitem y io.1 ;;
           Ok (if c != label then incorrect.+1 else incorrect))
        z (zip (iota m (size X)) X)
  = Raise IndexError.
Proof.
elim: X preds m z => [|r X IHX] preds m z /=.
  by rewrite addn0 => _ /andP [le_m]; rewrite ltnNge le_m.
case ok_r: (classify _ _ _ r) => [c|] //=.
case ok_X: (mapM _ X) => [preds'|] //= _; rewrite addnS ltnS.
move=> /andP [le_m le_y]; case: (ltnP m (size y)) => [lt_m|ge_m]; last first.
  by rewrite getitem_out.
have [lbl _] : exists lbl : L, True by case: (y) lt_m => // lbl; exists lbl.
rewrite (getitem_nth lbl) //=.
by apply: (IHX preds') => //; rewrite lt_m addSn ltnS.
Qed.

Lemma test_errorE self X y preds :
  mapM (classify sqrt set_iter self) X = Ok preds ->
  (0 < size X <= size y)%N ->
  test_error sqrt set_iter self X y =
    Ok ((misclassified preds y)%:R / (size X)%:R).
Proof.
move=> ok_preds /andP [X_gt0 le_size].
rewrite /test_error /count_incorrect /enumerate.
rewrite (count_incorrect_rec _ ok_preds) ?add0n //= drop0.
by rewrite /int_div; case: (size X) X_gt0.
Qed.

Lemma mapM_size A B (f : A -> result B) (s : seq A) bs :
  mapM f s = Ok bs -> size bs = size s.
Proof.
elim: s bs => [|a s IHs] bs /=; first by case=> <-.
case: (f a) => //= b; case: (mapM f s) IHs => //= bs' IHs [<-] /=.
by rewrite (IHs bs').
Qed.

(** C9 (as amended). [test_error(features, labels)] does not compare
    the lengths of its inputs.  When [features] is not empty, every
    row of it is classified and [labels] has at least as many entries
    as [features] has rows, it returns the fraction of the rows whose
    classification differs from the label at the same position, the
    labels in excess being ignored: 0 when every prediction matches and
    1 when every prediction is wrong.  When [labels] has fewer entries,
    it stops with the [IndexError] of the first missing label. *)
Theorem test_error_fraction self X y preds :
  mapM (classify sqrt set_iter self) X = Ok preds -> (0 < size X)%N ->
  ((size X <= size y)%N ->
     [/\ test_error sqrt set_iter self X y =
           Ok ((misclassified preds y)%:R / (size X)%:R),
         all (fun cl => cl.1 == cl.2) (zip preds y) ->
           test_error sqrt set_iter self X y = Ok 0
       & all (fun cl => cl.1 != cl.2) (zip preds y) ->
           test_error sqrt set_iter self X y = Ok 1]) /\
  ((size y < size X)%N ->
     test_error sqrt set_iter self X y = Raise IndexError).
Proof.
move=> ok_preds X_gt0; split=> [le_size|lt_size]; last first.
  rewrite /test_error /count_incorrect /enumerate.
  by rewrite (count_incorrect_short _ ok_preds).
have -> := test_errorE ok_preds (introT andP (conj X_gt0 le_size)).
split=> // [all_eq|all_neq]; congr Ok.
  have /eqP -> : misclassified preds y == 0%N.
    rewrite /misclassified eqn0Ngt -has_count -all_predC.
    by apply: sub_all all_eq => cl /= ->.
  by rewrite mul0r.
have -> : misclassified preds y = size X.
  move: all_neq; rewrite /misclassified all_count => /eqP ->.
  by rewrite size_zip (mapM_size ok_preds); apply/minn_idPl.
by rewrite divff // pnatr_eq0 -lt0n.
Qed.

End KNNErrorRates.

(** Closed instances for the classifier: the training set of scenario 2,
    [X = [[0], [1], [2], [10]]], [y = ['a', 'a', 'a', 'b']]. *)
Section KNNClosed.

Import KNN Examples.

Lemma perm_undup (lst : seq string) : perm_eq (undup lst) (undup lst).
Proof. exact: perm_refl. Qed.

(** The query [0.5] with [k = 3]: the points [1], [2] and [10] vote. *)
Example classify_line_k3 :
  classify sqrt_rat undup (line 3) [:: 2%:R^-1] = Ok "a"%string.
Proof. by vm_compute. Qed.

(** The same query with [k = 1]: the point [1] alone votes, though
    [0] is as close and comes first. *)
Example classify_line_k1 :
  classify sqrt_rat undup (line 1) [:: 2%:R^-1] = Ok "a"%string.
Proof. by vm_compute. Qed.

(** The query [10] with [k = 1]: the training point [10] itself is the
    closest and is left out. *)
Example classify_line_drops_exact_match :
  classify sqrt_rat undup (line 1) [:: 10%:R] = Ok "a"%string.
Proof. by vm_compute. Qed.

(** [k = 0]: the vote is over an empty list. *)
Example classify_line_k0 :
  classify sqrt_rat undup (line 0) [:: 2%:R^-1] = Raise (ValueError Max_empty).
Proof. by vm_compute. Qed.

(** A query of the wrong length. *)
Example classify_line_wrong_length :
  classify sqrt_rat undup (line 3) [:: 1; 1] =
    Raise (ValueError (Dimension_Error_x 2 1)).
Proof. by []. Qed.

Lemma classify_rows_line :
  mapM (classify sqrt_rat undup (line 3)) [:: [:: 2%:R^-1]] =
    Ok [:: "a"%string].
Proof. by vm_compute. Qed.

(** C5 (counterexample). With [n = 4] observations the constructor
    succeeds for [k = 0], which is below 1, and for [k = 5], which is
    above [n]. *)
Lemma KNN_accepts_k_out_of_range :
  [/\ (0 : int) < 1, new line_X line_y 0 = Ok (line 0),
      (4 : int) < 5 & new line_X line_y 5 = Ok (line 5)].
Proof. by []. Qed.

(** C5 at [k = 0]. *)
Lemma KNN_new_stores_any_k_witness :
  size line_y = size line_X /\ new line_X line_y 0 = Ok (line 0).
Proof.
have eq_size : size line_y = size line_X by [].
by split; [exact: eq_size | exact: (KNN_new_stores_any_k 0 eq_size)].
Defined.

(** C6 (counterexample). Four observations and one label: the
    constructor of [KNN] fails, but the attribute [X] has been assigned
    by then. *)
Lemma KNN_init_assigns_X_first :
  let a := Attrs (Some line_X) None None None None in
  [/\ size [:: "a"%string] <> size line_X,
      __init__ line_X [:: "a"%string] 3 (no_attrs rat string 1) =
        (Raise (ValueError (Cannot_reshape 1 4)), a)
    & a <> no_attrs rat string 1].
Proof. by split. Qed.

(** C6 at one observation with two targets, and at four observations
    with one label. *)
Lemma init_length_mismatch_witness :
  LinearRegression.__init__ (1%:M : 'M[rat]_1) [:: 1; 2%:R]
      (LinearRegression.no_attrs rat 1 1) =
    (Raise (ValueError (Dimensional_error 1 2)),
     LinearRegression.no_attrs rat 1 1) /\
  __init__ line_X [:: "a"%string] 3 (no_attrs rat string 1) =
    (Raise (ValueError (Cannot_reshape 1 4)),
     Attrs (Some line_X) None None None None).
Proof.
have [lr knn] :=
  init_length_mismatch (1%:M : 'M[rat]_1) [:: 1; 2%:R]
                       line_X [:: "a"%string] 3.
by split; [apply: lr | apply: knn].
Defined.



(** C9 (counterexample). One row and two labels: [test_error] does not
    fail, it returns the error rate of the row against the first
    label. *)
Lemma test_error_accepts_more_labels :
  size [:: [:: 2%:R^-1 : rat]] <> size [:: "a"; "b"]%string /\
  test_error sqrt_rat undup (line 3) [:: [:: 2%:R^-1]] [:: "a"; "b"]%string
    = Ok 0.
Proof.
split; first by [].
by rewrite (test_errorE classify_rows_line) // /misclassified /= mul0r.
Qed.

(** C9 at one row with a matching label, with a wrong label, and with
    no label. *)
Lemma test_error_fraction_witness :
  [/\ test_error sqrt_rat undup (line 3) [:: [:: 2%:R^-1]] [:: "a"%string]
        = Ok 0,
      test_error sqrt_rat undup (line 3) [:: [:: 2%:R^-1]] [:: "b"%string]
        = Ok 1
    & test_error sqrt_rat undup (line 3) [:: [:: 2%:R^-1]] [::]
        = Raise IndexError].
Proof.
have rows_gt0 : (0 < size [:: [:: 2%:R^-1 : rat]])%N by [].
have [on_a _] :=
  test_error_fraction [:: "a"%string] classify_rows_line rows_gt0.
have [on_b _] :=
  test_error_fraction [:: "b"%string] classify_rows_line rows_gt0.
have [_ on_nil] := test_error_fraction [::] classify_rows_line rows_gt0.
have [_ all_match _] := on_a isT.
have [_ _ all_wrong] := on_b isT.
by split; [exact: all_match | exact: all_wrong | exact: on_nil].
Defined.

End KNNClosed.

(** * Further properties of the two classes *)

(** ** Linear regression: construction and life cycle *)

Lemma len_X0_ok n p p' : LinearRegression.len_X0 n p = Ok p' -> (0 < n)%N.
Proof. by case: n. Qed.

Section LinearRegressionLifecycle.

Variable R : realFieldType.
Variable sqrt : R -> R.
Variables n p : nat.
Implicit Types (self : LinearRegression.t R n p) (h : R) (x : seq R).

Import LinearRegression.

Lemma new_inv (X0 : 'M[R]_(n, p)) (y0 : seq R) self :
  new X0 y0 = Ok self ->
  [/\ n = size y0, (0 < n)%N & self = Build X0 (np_asarray1 n y0) None].
Proof.
rewrite /new /__init__; case: eqP => [eq_n|//] /=.
rewrite /bindM /=; case ok_p: (len_X0 n p) => [p'|e] //= [<-].
by split=> //; exact: len_X0_ok ok_p.
Qed.

(** X1. A model that has been constructed holds the data it was given
    and no coefficients; until [fit] has run, [predict], [MSE] and
    [r_squared] raise a [TypeError]. *)
Theorem unfitted_model_raises (X0 : 'M[R]_(n, p)) (y0 : seq R) self x :
  new X0 y0 = Ok self ->
  [/\ X self = X0 /\ (forall i, y self i 0 = nth 0 y0 i),
      coefficients self = None,
      predict self x = Raise TypeError,
      MSE sqrt self = Raise TypeError
    & r_squared sqrt self = Raise TypeError].
Proof.
case/new_inv=> _ _ ->; split=> //; split=> // i.
by rewrite /np_asarray1 mxE.
Qed.

Lemma fit_ok_inv self method h self' :
  fit method h self = (Ok tt, self') ->
  exists b, self' = set_coefficients b self.
Proof.
rewrite /fit; case: String.eqb.
  rewrite /bindM /lift /np_linalg_inv; case: ifP => //= _ [<-].
  by eexists.
case: String.eqb => //.
rewrite /bindM /lift /np_linalg_inv /=; case: ifP => //= _ [<-].
by eexists.
Qed.

Lemma fit_set_coefficients self method h b :
  fit method h (set_coefficients b self) =
    let: (outcome, self') := fit method h self in
    (outcome, if outcome is Ok _ then self' else set_coefficients b self).
Proof.
rewrite /fit; case: String.eqb.
  by rewrite /bindM /lift /np_linalg_inv /=; case: ifP.
case: String.eqb => //.
by rewrite /bindM /lift /np_linalg_inv /=; case: ifP.
Qed.

(** X3. A fit that raises leaves the model, previous coefficients
    included, as it was; what it raises is the [LinAlgError] of the
    inversion or the "Invalid method argument" error. *)
Theorem failed_fit_changes_nothing self method h e self' :
  fit method h self = (Raise e, self') ->
  self' = self /\
  (e = LinAlgError \/ e = ValueError (Invalid_method method)).
Proof.
rewrite /fit; case: String.eqb.
  rewrite /bindM /lift /np_linalg_inv; case: ifP => //= _ [<- <-].
  by split; [|left].
case: String.eqb; last by rewrite /raise => -[<- <-]; split; [|right].
rewrite /bindM /lift /np_linalg_inv /=; case: ifP => //= _ [<- <-].
by split; [|left].
Qed.

(** X4. A fit does not depend on the coefficients of an earlier fit:
    fitting again after a successful fit gives the model that the
    second fit alone gives. *)
Theorem last_fit_wins self method1 h1 self1 method2 h2 self2 :
  fit method1 h1 self = (Ok tt, self1) ->
  fit method2 h2 self1 = (Ok tt, self2) ->
  fit method2 h2 self = (Ok tt, self2).
Proof.
case/fit_ok_inv=> b ->; rewrite fit_set_coefficients.
by case: (fit method2 h2 self) => -[[]|e] self' //= [<-].
Qed.

(** X7. Only the square of [h] enters the ridge fit: [h] and [- h]
    give the same outcome. *)
Theorem fit_ridge_sign self h : fit "ridge" (- h) self = fit "ridge" h self.
Proof. by rewrite !fit_ridge_E sqrrN. Qed.

End LinearRegressionLifecycle.

(** X2. With no observation the lengths agree and the constructor
    fails on [X[0]] with an [IndexError], after [X], [y] and [n] have
    been assigned. *)
Theorem new_without_observations (R : realFieldType) p (X0 : 'M[R]_(0, p)) :
  LinearRegression.new X0 [::] = Raise IndexError /\
  LinearRegression.__init__ X0 [::] (LinearRegression.no_attrs R 0 p) =
    (Raise IndexError,
     LinearRegression.Attrs (Some X0)
       (Some (LinearRegression.np_asarray1 0 [::])) (Some 0%N) None None).
Proof. by []. Qed.

(** ** Linear regression: the solutions of the fits *)

Section SumsOfSquares.

Variable R : realFieldType.

Lemma sum_sqrE m (v : 'cV[R]_m) : \sum_i (v i 0) ^+ 2 = (v^T *m v) 0 0.
Proof. by rewrite mxE; apply: eq_bigr => i _; rewrite mxE expr2. Qed.

Lemma sum_sqr_ge0 m (v : 'cV[R]_m) : 0 <= \sum_i (v i 0) ^+ 2.
Proof. by apply: sumr_ge0 => i _; rewrite sqr_ge0. Qed.



End SumsOfSquares.


Section LeastSquares.

Variable R : realFieldType.
Variables n p : nat.
Implicit Types (self : LinearRegression.t R n p) (h : R) (b : 'cV[R]_p).

Import LinearRegression.

(** X5. The coefficients of a successful ordinary fit solve the normal
    equations [X^T X b = X^T y]; the data are left as they were. *)
Theorem fit_OLS_normal_equations self h self' :
  fit "OLS" h self = (Ok tt, self') ->
  exists b,
    [/\ coefficients self' = Some b,
        (X self)^T *m X self *m b = (X self)^T *m y self
      & X self' = X self /\ y self' = y self].
Proof.
rewrite fit_OLS_E /=; case: ifP => // unit_A [<-].
by eexists; split=> //; rewrite mulKVmx.
Qed.



End LeastSquares.


Section Optimality.

Variable R : realFieldType.
Variable sqrt : R -> R.
(** What is assumed of the square root here: it is not negative and
    it is monotone. *)
Hypothesis sqrt_ge0 : forall x, 0 <= x -> 0 <= sqrt x.
Hypothesis sqrt_mono : forall x y, 0 <= x -> x <= y -> sqrt x <= sqrt y.
Variables n p : nat.
Implicit Types (self : LinearRegression.t R n p) (h : R) (b : 'cV[R]_p).

Import LinearRegression.

Lemma sum_sqr_orthogonal m (r d : 'cV[R]_m) :
  r^T *m d = 0 ->
  \sum_i ((r + d) i 0) ^+ 2 = \sum_i (r i 0) ^+ 2 + \sum_i (d i 0) ^+ 2.
Proof.
move=> rd0; rewrite !sum_sqrE [(r + d)^T]linearD /= mulmxDl !mulmxDr rd0 addr0.
by rewrite -[d^T *m r]trmxK trmx_mul trmxK rd0 trmx0 add0r mxE.
Qed.

(** X9. The coefficients of a successful ordinary fit minimise the
    residual sum of squares: [RSS] is no smaller at any other vector. *)
Theorem fit_OLS_minimises_RSS self h self' b :
  fit "OLS" h self = (Ok tt, self') -> coefficients self' = Some b ->
  forall b', RSS sqrt self b <= RSS sqrt self b'.
Proof.
rewrite fit_OLS_E /=; case: ifP => // unit_A [<-] /= [def_b] b'.
have normal : (X self)^T *m (y self - X self *m b) = 0.
  by rewrite mulmxBr mulmxA -def_b mulKVmx // subrr.
have def_res : y self - X self *m b' =
    (y self - X self *m b) + X self *m (b - b').
  by rewrite mulmxBr addrA subrK.
have ortho : (y self - X self *m b)^T *m (X self *m (b - b')) = 0.
  by rewrite mulmxA -[_^T *m X self]trmxK trmx_mul trmxK normal trmx0 mul0mx.
rewrite /RSS /np_linalg_norm def_res (sum_sqr_orthogonal ortho).
rewrite ler_sqr ?nnegrE ?sqrt_ge0 ?addr_ge0 ?sum_sqr_ge0 //.
by rewrite sqrt_mono ?sum_sqr_ge0 // lerDl sum_sqr_ge0.
Qed.

End Optimality.


Section ExactFit.

Variable R : realFieldType.
Variable sqrt : R -> R.
Hypothesis sqrt_eq0 : forall x, 0 <= x -> (sqrt x == 0) = (x == 0).
Variables n p : nat.
Implicit Types (self : LinearRegression.t R n p) (h : R) (b : 'cV[R]_p).

Import LinearRegression.


Lemma predict_rowE self b (i : 'I_n) :
  coefficients self = Some b ->
  predict self [seq X self i j | j : 'I_p] = Ok ((X self *m b) i 0).
Proof.
move=> fitted; rewrite (predictE _ fitted) size_map size_enum_ord; congr Ok.
rewrite mxE; apply: eq_big => [j|j _]; first by rewrite ltn_ord.
by rewrite (nth_map j) ?size_enum_ord // nth_ord_enum mulrC.
Qed.

(** X11. On a row of the training matrix [predict] returns the fitted
    value, the entry of [X b] for that row. *)
Theorem predict_training_row self b (i : 'I_n) :
  coefficients self = Some b ->
  predict self [seq X self i j | j : 'I_p] = Ok ((X self *m b) i 0).
Proof. exact: predict_rowE. Qed.

(** X12. [MSE()] is 0 exactly when [predict] reproduces the target of
    every training row. *)
Theorem MSE_zero_iff_exact self b :
  coefficients self = Some b -> (0 < n)%N ->
  MSE sqrt self = Ok 0 <->
  forall i : 'I_n,
    predict self [seq X self i j | j : 'I_p] = Ok (y self i 0).
Proof.
move=> fitted n_gt0; rewrite /MSE fitted; split.
  case=> /eqP; rewrite mulf_eq0 invr_eq0 pnatr_eq0 -[(n == 0)%N]negbK -lt0n.
  rewrite n_gt0 orbF => /eqP /RSS_eq0 res0 i.
  rewrite (predict_rowE _ fitted); congr Ok.
  have /eqP := res0 sqrt_eq0 i.
  by rewrite mxE [(- (X self *m b)) i 0]mxE subr_eq0 => /eqP.
move=> exact_i; have -> : RSS sqrt self b = 0; last by rewrite mul0r.
apply/RSS_eq0 => // i; have := exact_i i.
rewrite (predict_rowE _ fitted) => -[eq_i].
by rewrite mxE [(- (X self *m b)) i 0]mxE eq_i subrr.
Qed.


End ExactFit.

(** ** k-nearest neighbours: construction, distance and vote *)

Section KNNInvariant.

Variable R : realFieldType.
Variable L : eqType.
Variable p : nat.

Import KNN.

(** X14. A classifier that has been constructed holds the data and the
    [k] it was given, and as many labels as training points: [n] of
    each. *)
Theorem KNN_new_invariant (Xs : seq (p.-tuple R)) (ys : seq L) (k0 : int)
    (self : KNN.t R L p) :
  new Xs ys k0 = Ok self ->
  [/\ X self = Xs, y self = ys, k self = k0,
      size (X self) = n self & size (y self) = n self].
Proof.
rewrite /new /__init__ /bindM /= /reshape; case: eqP => //= size_y [<-] /=.
by split.
Qed.

End KNNInvariant.

Section Distance.

Variable R : realFieldType.
Variable sqrt : R -> R.
Implicit Types u v : seq R.

Import KNN.

Lemma euclidean_sym u v :
  size u = size v -> euclidean sqrt u v = euclidean sqrt v u.
Proof.
move=> eq_size; rewrite /euclidean eq_size; congr sqrt.
by apply: eq_bigr => i _; rewrite -sqrrN opprB.
Qed.

(** X15. [distance] is symmetric on points of the same length; on
    points of different lengths it raises the dimension error, which
    reports the two lengths in the order of the arguments. *)
Theorem distance_symmetric u v :
  (size u = size v -> distance sqrt u v = distance sqrt v u) /\
  (size u <> size v ->
     distance sqrt u v =
       Raise (ValueError (Dimension_Error (size u) (size v))) /\
     distance sqrt v u =
       Raise (ValueError (Dimension_Error (size v) (size u)))).
Proof.
split=> [eq_size|/eqP neq_size].
  by rewrite !distanceE // euclidean_sym.
by rewrite /distance [size v == _]eq_sym !(negPf neq_size).
Qed.

Hypothesis sqrt_eq0 : forall x, 0 <= x -> (sqrt x == 0) = (x == 0).



End Distance.


Section Votes.

Variable L : eqType.
Variable set_iter : seq L -> seq L.
Hypothesis set_iterP : forall lst, perm_eq (set_iter lst) (undup lst).

Import KNN.

Lemma mem_set_iter (lst : seq L) : set_iter lst =i lst.
Proof. by move=> c; rewrite (perm_mem (set_iterP lst)) mem_undup. Qed.

Lemma most_common_nil : _most_common set_iter [::] = Raise (ValueError Max_empty).
Proof.
rewrite /_most_common; case def_s: (set_iter [::]) => [|c s] //.
by have := mem_set_iter [::] c; rewrite def_s mem_head.
Qed.

Lemma most_common_mem (lst : seq L) c :
  _most_common set_iter lst = Ok c -> most_common c lst.
Proof.
case: (altP (lst =P [::])) => [->|lst_neq0]; first by rewrite most_common_nil.
by have [c0 -> common [<-]] := most_commonP set_iterP lst_neq0.
Qed.

(** X17. A label with strictly more occurrences than every other one
    is what [_most_common] returns, whatever the order in which the
    set is iterated. *)
Theorem most_common_strict_winner (lst : seq L) c :
  c \in lst ->
  (forall c', c' \in lst -> c' != c -> (count_mem c' lst < count_mem c lst)%N) ->
  _most_common set_iter lst = Ok c.
Proof.
move=> c_in winner.
have lst_neq0 : lst != [::] by case: (lst) c_in.
have [c0 -> [c0_in c0_max]] := most_commonP set_iterP lst_neq0.
case: (altP (c0 =P c)) => [-> //|neq_c].
by have := winner c0 c0_in neq_c; rewrite ltnNge c0_max.
Qed.

End Votes.

Lemma mapM_getitem_mem (L : eqType) (y : seq L) idx classes :
  mapM (getitem y) idx = Ok classes -> {subset classes <= y}.
Proof.
elim: idx classes => [|i idx IHidx] classes /=; first by case=> <-.
case ok_i: (getitem y i) => [c|] //=.
case ok_idx: (mapM _ idx) => [cs|] //= [<-] c'.
rewrite inE => /orP [/eqP ->|]; last exact: IHidx.
move: ok_i; rewrite /getitem; case: (y) => // a s.
by case: ifP => // lt_i [<-]; rewrite mem_nth.
Qed.

Lemma slice_nil A (s : seq A) (k : int) :
  [\/ k = 0, k = -1 | (size s <= 1)%N] -> slice s 1 (k + 1) = [::].
Proof.
case=> [->|->|le_s].
- by rewrite (slice_from_1 s 0); case: (s) => [|a [|a' s']].
- by rewrite addNr /slice (slice_index_nat _ 0) min0n take0.
rewrite /slice; apply: size0nil; apply/eqP; rewrite size_drop size_take.
rewrite (slice_index_nat _ 1) subn_eq0.
case: (ltnP _ (size s)) => [lt_k|_].
  case: (size s) le_s lt_k => [|[|m]] //= _.
  by rewrite ltnS leqn0 => /eqP ->.
by case: (size s) le_s => [|[|m]].
Qed.





Section ClassifyOutcomes.

Variable R : realFieldType.
Variable sqrt : R -> R.
Variable L : eqType.
Variable set_iter : seq L -> seq L.
Hypothesis set_iterP : forall lst, perm_eq (set_iter lst) (undup lst).
Variable p : nat.
Implicit Types (self : KNN.t R L p) (x : seq R).

Import KNN.

(** X18. What [classify] returns is one of the training labels, and
    it returns only for a query of length [p]. *)
Theorem classify_returns_training_label self x c :
  classify sqrt set_iter self x = Ok c -> size x = p /\ c \in y self.
Proof.
rewrite /classify; case: eqP => //= size_x.
case: (all_distances _ _ _) => [distances|] //=.
case ok_classes: (mapM _ _) => [classes|] //= /(most_common_mem set_iterP).
by case=> c_in _; split=> //; exact: mapM_getitem_mem ok_classes _ c_in.
Qed.

Lemma classify_empty_windowE self x :
  size x = p ->
  slice (sorted_by_distance (distance_pairs sqrt (X self) x)) 1 (k self + 1)
    = [::] ->
  classify sqrt set_iter self x = Raise (ValueError Max_empty).
Proof.
move=> size_x window0.
by rewrite /classify size_x eqxx all_distancesE //= window0 /= most_common_nil.
Qed.


(** X20. With [k = 0], with [k = -1], or with at most one training
    point, nothing is left to vote after the closest point has been
    dropped, and [classify] raises the [ValueError] of [max]. *)
Theorem classify_without_neighbours self x :
  size (X self) = n self -> size x = p ->
  [\/ k self = 0, k self = -1 | (n self <= 1)%N] ->
  classify sqrt set_iter self x = Raise (ValueError Max_empty).
Proof.
move=> size_X size_x no_window; apply: classify_empty_windowE => //.
apply: slice_nil; case: no_window => [k0|k1|le_n]; [exact: Or31|exact: Or32|].
by apply: Or33; rewrite size_ranked size_X.
Qed.

(** X21. A negative [k] is not rejected: it is read by the slice as a
    position from the end, so that [k = -(m+1)] with [0 < m < n]
    classifies as [k = n - (m+1)] does. *)
Theorem classify_negative_k (Xs : seq (p.-tuple R)) (ys : seq L) n0 m x :
  (0 < m < size Xs)%N ->
  classify sqrt set_iter (Build Xs ys n0 (Negz m)) x =
  classify sqrt set_iter (Build Xs ys n0 (size Xs - m.+1)%:Z) x.
Proof.
move=> /andP [m_gt0 lt_m]; rewrite /classify /=.
case: eqP => //= size_x; rewrite !all_distancesE //=.
set ranked := sorted_by_distance _.
suff -> : slice ranked 1 (Negz m + 1) = slice ranked 1 ((size Xs - m.+1)%:Z + 1).
  by [].
have size_r : size ranked = size Xs by rewrite (size_ranked sqrt (Build Xs ys n0 0)).
rewrite /slice size_r; congr (drop _ (take _ _)).
have -> : Negz m + 1 = Negz m.-1.
  by rewrite !NegzE prednK // -[in LHS]addn1 PoszD opprD subrK.
have -> : (size Xs - m.+1)%:Z + 1 = (size Xs - m)%:Z.
  by rewrite -PoszD addn1 subnSK.
rewrite slice_index_nat /= prednK //.
by apply/esym/minn_idPl; rewrite leq_subr.
Qed.

End ClassifyOutcomes.

Section LeaveOneOut.

Variable R : realFieldType.
Variable sqrt : R -> R.
Hypothesis sqrt_eq0 : forall x, 0 <= x -> (sqrt x == 0) = (x == 0).
Hypothesis sqrt_ge0 : forall x, 0 <= x -> 0 <= sqrt x.
Variable L : eqType.
Variable p : nat.
Implicit Types (self : KNN.t R L p).

Import KNN.



End LeaveOneOut.

(** ** k-nearest neighbours: error rates *)

Lemma foldM_counter A (f : nat -> A -> result nat) (s : seq A) z r :
  (forall z a z', f z a = Ok z' -> (z <= z' <= z.+1)%N) ->
  foldM f z s = Ok r -> (z <= r <= z + size s)%N.
Proof.
move=> step; elim: s z => [|a s IHs] z /=.
  by case=> <-; rewrite addn0 leqnn.
case ok_a: (f z a) => [z'|] //= /IHs /andP [le_z'r le_r].
have /andP [le_zz' le_z'S] := step _ _ _ ok_a.
rewrite (leq_trans le_zz' le_z'r) (leq_trans le_r) // addnS -addSn.
by rewrite leq_add2r.
Qed.


Section ErrorRateBounds.

Variable R : realFieldType.
Variable sqrt : R -> R.
Variable L : eqType.
Variable set_iter : seq L -> seq L.
Variable p : nat.
Implicit Types (self : KNN.t R L p) (X : seq (seq R)) (y : seq L).

Import KNN.

Lemma count_incorrect_le self X y r :
  count_incorrect sqrt set_iter self X y = Ok r -> (r <= size X)%N.
Proof.
rewrite /count_incorrect => ok_r.
have step z (io : nat * seq R) z' :
    (c <-- classify sqrt set_iter self io.2 ;;
     label <-- getitem y io.1 ;;
     Ok (if c != label then z.+1 else z)) = Ok z' -> (z <= z' <= z.+1)%N.
  case: (classify _ _ _ _) => [c|] //=.
  by case: (getitem _ _) => [l|] //= [<-]; case: ifP; rewrite leqnn ?leqnSn.
have := foldM_counter step ok_r.
by rewrite add0n /enumerate size_zip size_iota minnn => /andP [].
Qed.

Lemma int_div_bounds (r len : nat) (v : R) :
  (r <= len)%N -> int_div R r len = Ok v -> 0 <= v <= 1.
Proof.
case: len => [|len] //= le_r [<-].
by rewrite divr_ge0 ?ler0n // ler_pdivrMr ?ltr0n // mul1r ler_nat.
Qed.

(** X23. [test_error] on no row at all raises [ZeroDivisionError];
    whenever it returns, the value lies between 0 and 1. *)
Theorem test_error_bounds self X y :
  test_error sqrt set_iter self [::] y = Raise ZeroDivisionError /\
  (forall v, test_error sqrt set_iter self X y = Ok v -> 0 <= v <= 1).
Proof.
split=> // v; rewrite /test_error.
case ok_r: (count_incorrect _ _ _ _ _) => [r|] //=.
exact: int_div_bounds (count_incorrect_le ok_r).
Qed.

(** X24. On a classifier with [n] training points, what [train_error]
    returns lies between 0 and 1 and is what [test_error] returns on
    the training data. *)
Theorem train_error_bounds self v :
  size (X self) = n self ->
  train_error sqrt set_iter self = Ok v ->
  0 <= v <= 1 /\
  test_error sqrt set_iter self [seq tval r | r <- X self] (y self) = Ok v.
Proof.
move=> size_X; rewrite /train_error /test_error size_map size_X.
case ok_r: (count_incorrect _ _ _ _ _) => [r|] //= ok_v; split=> //.
apply: int_div_bounds ok_v.
by rewrite -size_X -(size_map (@tval _ _)) (count_incorrect_le ok_r).
Qed.

End ErrorRateBounds.


(** ** Closed instances of the further properties *)

Section FurtherClosed.

Import Examples.

Lemma sqrt_rat_ge0 (x : rat) : 0 <= x -> 0 <= sqrt_rat x.
Proof.
rewrite /sqrt_rat => x_ge0; case: (altP (x =P 0)) => // _.
by rewrite divr_ge0 ?ler0n // addr_ge0.
Qed.

Lemma sqrt_rat_mono (x y : rat) : 0 <= x -> x <= y -> sqrt_rat x <= sqrt_rat y.
Proof.
move=> x_ge0 le_xy; have y_ge0 := le_trans x_ge0 le_xy.
rewrite {1}/sqrt_rat; case: (altP (x =P 0)) => [_|x_neq0].
  exact: sqrt_rat_ge0.
have x_gt0 : 0 < x by rewrite lt_def x_neq0.
rewrite /sqrt_rat gt_eqF ?(lt_le_trans x_gt0) //.
by rewrite ler_pM2r ?invr_gt0 ?ltr0n // lerD2r.
Qed.

Lemma new_one :
  LinearRegression.new (1%:M : 'M[rat]_1) [:: 1] =
    Ok (LinearRegression.Build 1%:M (LinearRegression.np_asarray1 1 [:: 1])
          None).
Proof. exact: LinearRegression_newE. Qed.


(** X1 at [X = [[1]]], [y = [1]] and [x = [1]]. *)
Lemma unfitted_model_raises_witness :
  LinearRegression.predict
    (LinearRegression.Build (1%:M : 'M[rat]_1)
       (LinearRegression.np_asarray1 1 [:: 1]) None) [:: 1]
  = Raise TypeError.
Proof.
have [_ _ no_predict _ _] := unfitted_model_raises sqrt_rat [:: 1] new_one.
exact: no_predict.
Defined.

(** X3 at [method = 'lasso']. *)
Lemma failed_fit_changes_nothing_witness :
  one = one /\
  (ValueError (Invalid_method "lasso") = LinAlgError \/
   ValueError (Invalid_method "lasso") = ValueError (Invalid_method "lasso")).
Proof.
have failed :
    LinearRegression.fit "lasso" 1 one =
      (Raise (ValueError (Invalid_method "lasso")), one) by [].
exact: (failed_fit_changes_nothing failed).
Defined.

(** X4: an ordinary fit followed by a ridge fit with [h = 2]. *)
Lemma last_fit_wins_witness :
  LinearRegression.fit "ridge" 2%:R one =
    (Ok tt,
     LinearRegression.Build 1%:M 1%:M (Some ((1 + 2%:R ^+ 2)^-1 *: 1%:M))).
Proof.
have first_fit := fit_OLS_identity (1%:M : 'cV[rat]_1) None 1.
have second_fit := fit_ridge_identity (1%:M : 'cV[rat]_1) (Some 1%:M) 2%:R.
exact: (last_fit_wins first_fit second_fit).
Defined.

(** X5 at [X = [[1]]], [y = [1]]. *)
Lemma fit_OLS_normal_equations_witness :
  exists b : 'cV[rat]_1,
    [/\ Some (1%:M : 'cV[rat]_1) = Some b,
        (1%:M : 'M[rat]_1)^T *m 1%:M *m b = 1%:M^T *m 1%:M
      & 1%:M = (1%:M : 'M[rat]_1) /\ 1%:M = (1%:M : 'cV[rat]_1)].
Proof.
have ok := fit_OLS_identity (1%:M : 'cV[rat]_1) None 1.
exact: (fit_OLS_normal_equations ok).
Defined.



(** X9 at [X = [[1]]], [y = [1]], against the zero vector. *)
Lemma fit_OLS_minimises_RSS_witness :
  LinearRegression.RSS sqrt_rat one 1%:M <= LinearRegression.RSS sqrt_rat one 0.
Proof.
have ok := fit_OLS_identity (1%:M : 'cV[rat]_1) None 1.
have fitted :
    LinearRegression.coefficients
      (LinearRegression.Build (1%:M : 'M[rat]_1) 1%:M (Some 1%:M))
    = Some 1%:M by [].
exact: (fit_OLS_minimises_RSS sqrt_rat_ge0 sqrt_rat_mono ok fitted 0).
Defined.


(** X11 at the second row of the identity of size 2. *)
Lemma predict_training_row_witness :
  LinearRegression.predict two
    [seq (1%:M : 'M[rat]_2) ord_max j | j : 'I_2]
  = Ok (((1%:M : 'M[rat]_2) *m two_y) ord_max 0).
Proof.
have fitted : LinearRegression.coefficients two = Some two_y by [].
exact: (predict_training_row ord_max fitted).
Defined.

(** X12 at the same model, which reproduces its two targets. *)
Lemma MSE_zero_iff_exact_witness : LinearRegression.MSE sqrt_rat two = Ok 0.
Proof.
have fitted : LinearRegression.coefficients two = Some two_y by [].
have n_gt0 : (0 < 2)%N by [].
have [_ exact_mse] := MSE_zero_iff_exact sqrt_rat_eq0 fitted n_gt0.
apply: exact_mse => i.
by rewrite (predict_rowE i fitted) /= mul1mx.
Defined.

(** X14 at the training set of scenario 2. *)
Lemma KNN_new_invariant_witness :
  size (KNN.X (line 3)) = KNN.n (line 3) /\
  size (KNN.y (line 3)) = KNN.n (line 3).
Proof.
have ok : KNN.new line_X line_y 3 = Ok (line 3) by [].
have [_ _ _ size_X size_y] := KNN_new_invariant ok.
by split; [exact: size_X | exact: size_y].
Defined.

(** X15 at [[1]] and [[2]], and at [[1]] and [[1, 2]]. *)
Lemma distance_symmetric_witness :
  KNN.distance sqrt_rat [:: 1] [:: 2%:R] = KNN.distance sqrt_rat [:: 2%:R] [:: 1]
  /\ KNN.distance sqrt_rat [:: 1] [:: 1; 2%:R] =
       Raise (ValueError (Dimension_Error 1 2)).
Proof.
have [sym _] := distance_symmetric sqrt_rat [:: 1] [:: 2%:R].
have [_ mismatch] := distance_symmetric sqrt_rat [:: 1] [:: 1; 2%:R].
have eq_size : size [:: 1 : rat] = size [:: 2%:R : rat] by [].
have neq_size : size [:: 1 : rat] <> size [:: 1; 2%:R : rat] by [].
have [raises _] := mismatch neq_size.
by split; [exact: (sym eq_size) | exact: raises].
Defined.


(** X17 at the vote ['a', 'a', 'b']. *)
Lemma most_common_strict_winner_witness :
  KNN._most_common undup [:: "a"; "a"; "b"]%string = Ok "a"%string.
Proof.
have a_in : "a"%string \in [:: "a"; "a"; "b"]%string by [].
have winner (c' : string) :
    c' \in [:: "a"; "a"; "b"]%string -> c' != "a"%string ->
    (count_mem c' [:: "a"; "a"; "b"]%string
       < count_mem "a"%string [:: "a"; "a"; "b"]%string)%N.
  by rewrite !inE => /or3P [] /eqP ->.
exact: (most_common_strict_winner perm_undup a_in winner).
Defined.

(** X18 at [k = 3] and the query [0.5]. *)
Lemma classify_returns_training_label_witness :
  size [:: 2%:R^-1 : rat] = 1%N /\ "a"%string \in line_y.
Proof.
have ok : KNN.classify sqrt_rat undup (line 3) [:: 2%:R^-1] = Ok "a"%string.
  by vm_compute.
exact: (classify_returns_training_label perm_undup ok).
Defined.


(** X20 at [k = 0] and the query [0.5]. *)
Lemma classify_without_neighbours_witness :
  KNN.classify sqrt_rat undup (line 0) [:: 2%:R^-1] =
    Raise (ValueError Max_empty).
Proof.
have size_X : size (KNN.X (line 0)) = KNN.n (line 0) by [].
have size_x : size [:: 2%:R^-1 : rat] = 1%N by [].
have k0 : [\/ KNN.k (line 0) = 0, KNN.k (line 0) = -1
            | (KNN.n (line 0) <= 1)%N] by apply: Or31.
exact: (classify_without_neighbours sqrt_rat perm_undup size_X size_x k0).
Defined.

(** X21 at [k = -2] with four training points: as [k = 2]. *)
Lemma classify_negative_k_witness :
  KNN.classify sqrt_rat undup (line (Negz 1)) [:: 2%:R^-1] =
  KNN.classify sqrt_rat undup (line 2) [:: 2%:R^-1].
Proof.
have bounds : (0 < 1 < size line_X)%N by [].
exact: (classify_negative_k sqrt_rat undup line_y 4 [:: 2%:R^-1] bounds).
Defined.


Lemma test_error_line :
  KNN.test_error sqrt_rat undup (line 3) [:: [:: 2%:R^-1]] [:: "a"%string]
    = Ok 0.
Proof.
by rewrite (test_errorE classify_rows_line) // /misclassified /= mul0r.
Qed.

(** X23 at one row with a matching label. *)
Lemma test_error_bounds_witness : (0 : rat) <= (0 : rat) <= (1 : rat).
Proof.
have [_ bounds] :=
  test_error_bounds sqrt_rat undup (line 3) [:: [:: 2%:R^-1]] [:: "a"%string].
exact: (bounds 0 test_error_line).
Defined.

Lemma train_error_line :
  KNN.train_error sqrt_rat undup (line 3) = Ok (4%:R^-1).
Proof.
have ok : KNN.count_incorrect sqrt_rat undup (line 3)
            [seq tval r | r <- KNN.X (line 3)] (KNN.y (line 3)) = Ok 1%N.
  by vm_compute.
by rewrite /KNN.train_error ok /= div1r.
Qed.

(** X24 at the training set of scenario 2 with [k = 3], where one of
    the four training points is misclassified. *)
Lemma train_error_bounds_witness :
  (0 : rat) <= 4%:R^-1 <= (1 : rat) /\
  KNN.test_error sqrt_rat undup (line 3)
    [seq tval r | r <- KNN.X (line 3)] (KNN.y (line 3)) = Ok (4%:R^-1).
Proof.
have size_X : size (KNN.X (line 3)) = KNN.n (line 3) by [].
exact: (train_error_bounds size_X train_error_line).
Defined.

End FurtherClosed.
